(** * render_to_img: a shallow embedding of [src/render/x.py]

    The module has one function, [render_to_img], which frames its input
    as a page, writes it into a scoped temporary directory, drives a
    headless browser to take a screenshot and pipes the screenshot through
    an image converter.  The pure steps (string framing, suffix
    derivation, argument lists) are Rocq functions; the effects (temporary
    directory, file write, the two subprocesses) are run in a small
    state-and-exception monad over a set of existing paths, and every
    interaction with the outside is logged as an event. *)

From Stdlib Require Import ZArith List Ascii String DecimalString Bool Lia.
From Stdlib.Strings Require Import Byte.
From stdpp Require Import base gmap sets strings.
Import ListNotations.

(** ** Strings *)

Module Str.

(** The double-quote character, code point 34. *)
Definition dquote : string := Eval cbv in String (ascii_of_nat 34) EmptyString.

(** Python's [sub in s] on [str]: [sub] occurs at some offset of [s]. *)
Fixpoint str_in (sub s : string) : bool :=
  if String.prefix sub s then true
  else match s with
       | EmptyString => false
       | String _ s' => str_in sub s'
       end.

(** Python's truthiness of a [str]: only the empty string is falsy. *)
Definition truthy (s : string) : bool :=
  match s with
  | EmptyString => false
  | String _ _ => true
  end.

(** [s.endswith('/')]. *)
Fixpoint ends_with_sep (s : string) : bool :=
  match s with
  | EmptyString => false
  | String c EmptyString => Ascii.eqb c "/"
  | String _ s' => ends_with_sep s'
  end.

(** [str(n)] and ['{}'.format(n)] for a Python [int]. *)
Definition of_int (n : Z) : string := NilZero.string_of_int (Z.to_int n).

End Str.

(** [os.path.join(a, b)] of [posixpath], for two components. *)
Definition path_join (a b : string) : string :=
  if String.prefix "/" b then b
  else if negb (Str.truthy a) || Str.ends_with_sep a then a +:+ b
  else a +:+ "/" +:+ b.

(** Modelled from the spec: [pjoin] is used by [render_to_img] but is not
    defined in [x.py], whose import header is absent.  The spec has the
    converter run "on the file screenshot.png in the temporary directory",
    so [pjoin] is the usual alias of [os.path.join]. *)
Definition pjoin (a b : string) : string := path_join a b.

(** ** Values and exceptions *)

(** The [input] argument is a [str] or a [bytes] object. *)
Inductive content : Type :=
| Text (s : string)
| Binary (b : list Byte.byte).

Definition isinstance_bytes (x : content) : bool :=
  match x with
  | Text _ => false
  | Binary _ => true
  end.

(** The exceptions that can leave [render_to_img]: [TypeError] from
    [str + bytes]; [OSError] from the file system or a process launch;
    [ValueError] from [open] on a name with a NUL character;
    [UnicodeEncodeError] from writing text the file encoding cannot hold;
    [CalledProcessError] from a process that exits non-zero. *)
Inductive exc : Type :=
| TypeError
| OSError (errno : Z)
| ValueError
| UnicodeEncodeError
| CalledProcessError (returncode : Z) (out err : list Byte.byte).

(** [s + x] for a [str] [s]: concatenation on [str], [TypeError] on
    [bytes]. *)
Definition str_add (s : string) (x : content) : exc + content :=
  match x with
  | Text t => inr (Text (s +:+ t))
  | Binary _ => inl TypeError
  end.

(** ** Step 1: HTML framing (lines 25-30) *)

(** [r'<meta http-equiv="Content-Type" content="text/html; charset=utf-8"/>'] *)
Definition meta_directive : string :=
  "<meta http-equiv=" +:+ Str.dquote +:+ "Content-Type" +:+ Str.dquote
  +:+ " content=" +:+ Str.dquote +:+ "text/html; charset=utf-8" +:+ Str.dquote
  +:+ "/>".

(** [r'<base href="file://{}/">'.format(asset_base)] *)
Definition base_directive (asset_base : string) : string :=
  "<base href=" +:+ Str.dquote +:+ "file://" +:+ asset_base +:+ "/"
  +:+ Str.dquote +:+ ">".

Definition html_prepend (mime : string) (input : content)
    (asset_base : option string) : exc + content :=
  if Str.str_in "html" mime then
    match str_add meta_directive input with
    | inl e => inl e
    | inr input1 =>
        match asset_base with
        | Some ab => str_add (base_directive ab) input1
        | None => inr input1
        end
    end
  else inr input.

(** ** Step 2: suffix derivation (lines 32-42) *)

(** An insertion-ordered [dict] from [str] to [str]: iteration order is
    the list order, and [get] returns the entry of the key. *)
Definition dict : Type := list (string * string).

Fixpoint dict_get (d : dict) (k : string) : option string :=
  match d with
  | [] => None
  | (k', v) :: rest => if String.eqb k' k then Some v else dict_get rest k
  end.

(** [x or y] where [x] is [None] or a [str]. *)
Definition py_or (x : option string) (y : string) : string :=
  match x with
  | Some v => if Str.truthy v then v else y
  | None => y
  end.

(** The [for k, v in mimetypes.items()] loop with its [break]; [suffix]
    is the value the variable holds when the loop is entered. *)
Fixpoint suffix_loop (items : dict) (m suffix : string) : string :=
  match items with
  | [] => suffix
  | (k, v) :: rest => if String.eqb v m then k else suffix_loop rest m suffix
  end.

(** ** Step 4a: the browser executable (lines 44-47) *)

Definition chrome_path (platform : string) : string :=
  if String.eqb platform "darwin"
  then "/Applications/Google Chrome.app/Contents/MacOS/Google Chrome"
  else "google-chrome".

(** ** The outside world *)

(** One call of [k3proc.command_ex]: the executable, its arguments and
    the keyword options [cwd] and [text] ([None] when not passed). *)
Record invocation : Type := Invocation {
  cmd : string;
  args : list string;
  cwd : option string;
  text : option bool
}.

(** What became of a launched process: it could not be started, or it
    ran and exited with a return code and its captured output. *)
Inductive proc_outcome : Type :=
| LaunchFailed (errno : Z)
| Exited (returncode : Z) (out err : list Byte.byte).

(** The log of what a call did to the outside. *)
Inductive event : Type :=
| EvMkdtemp (dir : string)
| EvWrite (fn flags : string) (data : content) (failure : option exc)
| EvCommand (c : invocation) (o : proc_outcome)
| EvCleanup (dir : string).

(** The file system is the set of paths that exist. *)
Abbreviation paths := (gset string).

(** The operating system as the function sees it: [sys.platform], the
    choice of a temporary directory (or an error number), whether opening
    and writing a file fails and with which exception, and what a
    launched process does. *)
Record os : Type := Os {
  os_platform : string;
  os_mkdtemp : paths -> Z + string;
  os_open : string -> string -> content -> paths -> option exc;
  os_spawn : invocation -> paths -> proc_outcome * paths
}.

(** [p] is [d] or lies below it. *)
Definition under (d p : string) : bool :=
  String.eqb p d || String.prefix (d +:+ "/") p.

(** [shutil.rmtree(d)]: [d] and everything below it cease to exist. *)
Definition rmtree (d : string) (fs : paths) : paths :=
  filter (fun p => under d p = false) fs.

(** ** The monad: file-system state, event log, exceptions *)

Definition io (A : Type) : Type := paths -> paths * list event * (exc + A).

Definition ret {A : Type} (a : A) : io A := fun fs => (fs, [], inr a).

Definition raise {A : Type} (e : exc) : io A := fun fs => (fs, [], inl e).

Definition lift {A : Type} (r : exc + A) : io A := fun fs => (fs, [], r).

Definition bind {A B : Type} (c : io A) (k : A -> io B) : io B :=
  fun fs =>
    match c fs with
    | (fs1, ev1, inl e) => (fs1, ev1, inl e)
    | (fs1, ev1, inr a) =>
        let '(fs2, ev2, r) := k a fs1 in (fs2, ev1 ++ ev2, r)
    end.

Notation "x <~ c ;; k" := (bind c (fun x => k))
  (at level 100, c at next level, right associativity).

(** The literal of line 76. *)
Definition flatten_args : list string :=
  ["-background"; "white"; "-flatten"; "-alpha"; "off"].

Section Render.

(** The module-level alias table [mimetypes] is not part of [x.py] as
    given; it is a parameter, in insertion order. *)
Variable mimetypes : dict.
Variable sys : os.

(** [with tempfile.TemporaryDirectory() as tdir: body]: the directory
    is created, the body runs, and on every way out of the body the
    directory is removed and the body's result or exception passed on. *)
Definition with_temporary_directory {A : Type} (body : string -> io A) : io A :=
  fun fs =>
    match os_mkdtemp sys fs with
    | inl errno => (fs, [], inl (OSError errno))
    | inr tdir =>
        let '(fs1, ev, r) := body tdir ({[tdir]} ∪ fs) in
        (rmtree tdir fs1, EvMkdtemp tdir :: ev ++ [EvCleanup tdir], r)
    end.

(** [with open(fn, flags) as f: f.write(data)]: whatever [open] or
    [write] raises is raised; otherwise the file exists. *)
Definition open_write (fn flags : string) (data : content) : io unit :=
  fun fs =>
    match os_open sys fn flags data fs with
    | Some e => (fs, [EvWrite fn flags data (Some e)], inl e)
    | None => ({[fn]} ∪ fs, [EvWrite fn flags data None], inr tt)
    end.

(** Modelled from the spec: [k3proc.command_ex] is an external library
    function, not defined in [x.py].  The spec makes "any non-zero exit
    or launch failure of either external tool" a hard failure raised to
    the caller, and has the call return the captured standard output;
    so a launch failure raises [OSError], a non-zero exit raises
    [CalledProcessError], and exit 0 returns [(returncode, out, err)]. *)
Definition command_ex (c : invocation) : io (Z * list Byte.byte * list Byte.byte) :=
  fun fs =>
    let '(o, fs1) := os_spawn sys c fs in
    (fs1, [EvCommand c o],
     match o with
     | LaunchFailed errno => inl (OSError errno)
     | Exited code out err =>
         if Z.eqb code 0 then inr (code, out, err)
         else inl (CalledProcessError code out err)
     end).

(** Lines 32-42: [m = mimetypes.get(mime) or mime], then the loop. *)
Definition suffix_of (mime : string) : string :=
  let m := py_or (dict_get mimetypes mime) mime in
  suffix_loop mimetypes m mime.

(** Lines 72-76. *)
Definition moreargs (typ : string) : list string :=
  if String.eqb typ "png" then [] else flatten_args.

Definition chrome_invocation (chrome : string) (width height : Z)
    (fn tdir : string) : invocation :=
  {| cmd := chrome;
     args := ["--headless"; "--disable-gpu"; "--no-sandbox"; "--screenshot";
              "--window-size=" +:+ Str.of_int width +:+ "," +:+ Str.of_int height;
              "--default-background-color=00000000";
              fn];
     cwd := Some tdir;
     text := None |}.

Definition convert_invocation (typ tdir : string) : invocation :=
  {| cmd := "convert";
     args := [pjoin tdir "screenshot.png"; "-trim"; "+repage"]
               ++ moreargs typ ++ [typ +:+ ":-"];
     cwd := None;
     text := Some false |}.

Definition render_to_img (mime : string) (input : content) (typ : string)
    (width height : Z) (asset_base : option string) : io (list Byte.byte) :=
  input <~ lift (html_prepend mime input asset_base) ;;
  let suffix := suffix_of mime in
  let chrome := chrome_path (os_platform sys) in
  with_temporary_directory (fun tdir =>
    let fn := path_join tdir ("xxx." +:+ suffix) in
    let flags := if isinstance_bytes input then "wb" else "w" in
    _ <~ open_write fn flags input ;;
    _ <~ command_ex (chrome_invocation chrome width height fn tdir) ;;
    r <~ command_ex (convert_invocation typ tdir) ;;
    let '(_, out, _) := r in
    ret out).

End Render.

(** The three components of a finished run. *)
Definition final_fs {A : Type} (x : paths * list event * (exc + A)) : paths :=
  fst (fst x).

Definition events {A : Type} (x : paths * list event * (exc + A)) : list event :=
  snd (fst x).

Definition result {A : Type} (x : paths * list event * (exc + A)) : exc + A :=
  snd x.

(** [sub] occurs in [s]: [s] is some [a], then [sub], then some [b]. *)
Definition occurs_in (sub s : string) : Prop :=
  exists a b : string, s = a +:+ sub +:+ b.

(** ** The ways a call can end *)

(** The exception [command_ex] raises for an outcome, if any. *)
Definition tool_error (o : proc_outcome) : option exc :=
  match o with
  | LaunchFailed errno => Some (OSError errno)
  | Exited code out err =>
      if Z.eqb code 0 then None else Some (CalledProcessError code out err)
  end.

(** A process failed: it could not be launched, or it exited non-zero. *)
Definition tool_failed (o : proc_outcome) : Prop :=
  match o with
  | LaunchFailed _ => True
  | Exited code _ _ => code <> 0%Z
  end.

(** The exception that stands for a failed process. *)
Definition failure_of (o : proc_outcome) : exc :=
  match o with
  | LaunchFailed errno => OSError errno
  | Exited code out err => CalledProcessError code out err
  end.

Section Shapes.

Variable mimetypes : dict.
Variable sys : os.
Variables (mime : string) (input : content) (typ : string).
Variables (width height : Z) (asset_base : option string) (fs0 : paths).

(** The six ways through [render_to_img], each with the final file
    system, the events in order, and the result: the framing raises;
    no temporary directory can be made; the input file cannot be
    written; the browser fails; the converter fails; all succeed. *)
Inductive run_shape : paths * list event * (exc + list Byte.byte) -> Prop :=
| run_framing_raises e :
    html_prepend mime input asset_base = inl e ->
    run_shape (fs0, [], inl e)
| run_mkdtemp_fails input1 errno :
    html_prepend mime input asset_base = inr input1 ->
    os_mkdtemp sys fs0 = inl errno ->
    run_shape (fs0, [], inl (OSError errno))
| run_write_fails input1 tdir e :
    html_prepend mime input asset_base = inr input1 ->
    os_mkdtemp sys fs0 = inr tdir ->
    run_shape
      (rmtree tdir ({[tdir]} ∪ fs0),
       [EvMkdtemp tdir;
        EvWrite (path_join tdir ("xxx." +:+ suffix_of mimetypes mime))
                (if isinstance_bytes input1 then "wb" else "w")
                input1 (Some e);
        EvCleanup tdir],
       inl e)
| run_browser_fails input1 tdir o fs1 e :
    html_prepend mime input asset_base = inr input1 ->
    os_mkdtemp sys fs0 = inr tdir ->
    tool_error o = Some e ->
    run_shape
      (rmtree tdir fs1,
       [EvMkdtemp tdir;
        EvWrite (path_join tdir ("xxx." +:+ suffix_of mimetypes mime))
                (if isinstance_bytes input1 then "wb" else "w")
                input1 None;
        EvCommand
          (chrome_invocation (chrome_path (os_platform sys)) width height
             (path_join tdir ("xxx." +:+ suffix_of mimetypes mime)) tdir) o;
        EvCleanup tdir],
       inl e)
| run_convert_fails input1 tdir o1 o2 fs2 e :
    html_prepend mime input asset_base = inr input1 ->
    os_mkdtemp sys fs0 = inr tdir ->
    tool_error o1 = None ->
    tool_error o2 = Some e ->
    run_shape
      (rmtree tdir fs2,
       [EvMkdtemp tdir;
        EvWrite (path_join tdir ("xxx." +:+ suffix_of mimetypes mime))
                (if isinstance_bytes input1 then "wb" else "w")
                input1 None;
        EvCommand
          (chrome_invocation (chrome_path (os_platform sys)) width height
             (path_join tdir ("xxx." +:+ suffix_of mimetypes mime)) tdir) o1;
        EvCommand (convert_invocation typ tdir) o2;
        EvCleanup tdir],
       inl e)
| run_returns input1 tdir o1 out err fs2 :
    html_prepend mime input asset_base = inr input1 ->
    os_mkdtemp sys fs0 = inr tdir ->
    tool_error o1 = None ->
    run_shape
      (rmtree tdir fs2,
       [EvMkdtemp tdir;
        EvWrite (path_join tdir ("xxx." +:+ suffix_of mimetypes mime))
                (if isinstance_bytes input1 then "wb" else "w")
                input1 None;
        EvCommand
          (chrome_invocation (chrome_path (os_platform sys)) width height
             (path_join tdir ("xxx." +:+ suffix_of mimetypes mime)) tdir) o1;
        EvCommand (convert_invocation typ tdir) (Exited 0 out err);
        EvCleanup tdir],
       inr out).

End Shapes.

(** ** Sample worlds and tables for running the model *)

Definition ok_bytes : list Byte.byte := [x89; x50; x4e; x47].

(** A world in which everything works: the browser writes the
    screenshot, the converter prints four bytes. *)
Definition sys_ok : os :=
  {| os_platform := "linux";
     os_mkdtemp := fun _ => inr "/tmp/t";
     os_open := fun _ _ _ _ => None;
     os_spawn := fun c fs =>
       if String.eqb (cmd c) "convert" then (Exited 0 ok_bytes [], fs)
       else (Exited 0 [] [], {["/tmp/t/screenshot.png"]} ∪ fs) |}.

(** A world in which the browser exits with status 1 after leaving a
    file behind. *)
Definition sys_chrome_fails : os :=
  {| os_platform := "darwin";
     os_mkdtemp := fun _ => inr "/tmp/t";
     os_open := fun _ _ _ _ => None;
     os_spawn := fun c fs => (Exited 1 [] [], {["/tmp/t/core"]} ∪ fs) |}.

(** A world in which the converter cannot be launched. *)
Definition sys_convert_missing : os :=
  {| os_platform := "linux";
     os_mkdtemp := fun _ => inr "/tmp/t";
     os_open := fun _ _ _ _ => None;
     os_spawn := fun c fs =>
       if String.eqb (cmd c) "convert" then (LaunchFailed 2, fs)
       else (Exited 0 [] [], {["/tmp/t/screenshot.png"]} ∪ fs) |}.

Definition table_one_to_one : dict :=
  [("html", "text/html"); ("svg", "image/svg+xml"); ("png", "image/png")].

(** A table in which two aliases stand for one MIME string. *)
Definition table_two_aliases : dict :=
  [("htm", "text/html"); ("html", "text/html"); ("jpeg", "image/jpeg");
   ("jpg", "image/jpeg")].

(** ** Observations on a run *)

(** The executables a run launched, in order. *)
Fixpoint launched (evs : list event) : list string :=
  match evs with
  | [] => []
  | EvCommand c _ :: rest => cmd c :: launched rest
  | _ :: rest => launched rest
  end.

(** Events that create or remove a temporary directory. *)
Definition is_tmpdir_event (e : event) : bool :=
  match e with
  | EvMkdtemp _ | EvCleanup _ => true
  | EvWrite _ _ _ _ | EvCommand _ _ => false
  end.

(** A name [tempfile] hands out: not empty, no trailing separator. *)
Definition plain_dir (d : string) : Prop :=
  Str.truthy d = true /\ Str.ends_with_sep d = false.

(** A [dict] proper: no key twice; and one whose values are all
    non-empty strings. *)
Definition unique_keys (d : dict) : Prop := NoDup (map fst d).

Definition nonempty_values (d : dict) : Prop :=
  forall k v, In (k, v) d -> v <> EmptyString.

(** A world in which the input file cannot be written: the text cannot
    be encoded. *)
Definition sys_write_fails : os :=
  {| os_platform := "linux";
     os_mkdtemp := fun _ => inr "/tmp/t";
     os_open := fun _ _ _ _ => Some UnicodeEncodeError;
     os_spawn := fun c fs => (Exited 0 [] [], fs) |}.

(** A world in which no temporary directory can be made (errno 13). *)
Definition sys_no_tmpdir : os :=
  {| os_platform := "linux";
     os_mkdtemp := fun _ => inl 13%Z;
     os_open := fun _ _ _ _ => None;
     os_spawn := fun c fs => (Exited 0 [] [], fs) |}.

(** * Properties *)

Example meta_directive_length : String.length meta_directive = 68.
Proof. reflexivity. Qed.

Example of_int_1000 : Str.of_int 1000 = "1000".
Proof. reflexivity. Qed.

Example of_int_neg : Str.of_int (-5) = "-5".
Proof. reflexivity. Qed.

Example of_int_0 : Str.of_int 0 = "0".
Proof. reflexivity. Qed.


(** ** String facts *)

Lemma append_nil (s : string) : EmptyString +:+ s = s.
Proof. reflexivity. Qed.

Lemma append_cons (c : ascii) (a b : string) :
  String c a +:+ b = String c (a +:+ b).
Proof. reflexivity. Qed.

Lemma prefix_spec (a s : string) :
  String.prefix a s = true <-> exists b, s = a +:+ b.
Proof.
  revert s. induction a as [|c a IH]; intros s.
  - split; [intros _; exists s; reflexivity | destruct s; reflexivity].
  - destruct s as [|d s]; simpl.
    + split; [discriminate | intros [b Hb]; discriminate].
    + destruct (ascii_dec c d) as [->|Hne].
      * rewrite IH. split; intros [b Hb]; exists b;
          rewrite append_cons in *; congruence.
      * split; [discriminate |].
        intros [b Hb]. rewrite append_cons in Hb. congruence.
Qed.

Lemma str_in_unfold (sub s : string) :
  Str.str_in sub s =
  if String.prefix sub s then true
  else match s with
       | EmptyString => false
       | String _ s' => Str.str_in sub s'
       end.
Proof. destruct s; reflexivity. Qed.

Lemma str_in_spec (sub s : string) :
  Str.str_in sub s = true <-> occurs_in sub s.
Proof.
  unfold occurs_in. split.
  - induction s as [|c s IH]; rewrite str_in_unfold;
      destruct (String.prefix sub _) eqn:Hp.
    + intros _. apply prefix_spec in Hp. destruct Hp as [b Hb].
      exists EmptyString, b. exact Hb.
    + discriminate.
    + intros _. apply prefix_spec in Hp. destruct Hp as [b Hb].
      exists EmptyString, b. exact Hb.
    + intros H. destruct (IH H) as (a & b & Hab).
      exists (String c a), b. rewrite append_cons. congruence.
  - intros (a & b & ->). induction a as [|c a IH]; rewrite str_in_unfold.
    + replace (String.prefix sub _) with true; [reflexivity|].
      symmetry. apply prefix_spec. exists b. reflexivity.
    + rewrite append_cons.
      destruct (String.prefix sub _); [reflexivity | exact IH].
Qed.

Lemma str_in_false (sub s : string) :
  Str.str_in sub s = false <-> ~ occurs_in sub s.
Proof.
  rewrite <- str_in_spec. destruct (Str.str_in sub s); split; intros H;
    try reflexivity; try discriminate; try congruence.
Qed.

Lemma append_length (a b : string) :
  String.length (a +:+ b) = String.length a + String.length b.
Proof.
  induction a as [|c a IH]; [reflexivity|].
  rewrite append_cons. simpl. rewrite IH. reflexivity.
Qed.

Lemma append_assoc (a b c : string) : (a +:+ b) +:+ c = a +:+ b +:+ c.
Proof.
  induction a as [|x a IH]; [reflexivity|].
  rewrite !append_cons, IH. reflexivity.
Qed.

Lemma path_join_relative (a b : string) :
  String.prefix "/" b = false -> exists x, path_join a b = x +:+ b.
Proof.
  intros Hb. unfold path_join. rewrite Hb.
  destruct (negb (Str.truthy a) || Str.ends_with_sep a).
  - exists a. reflexivity.
  - exists (a +:+ "/"). rewrite append_assoc. reflexivity.
Qed.

Lemma pjoin_screenshot_length (d : string) :
  14 <= String.length (pjoin d "screenshot.png").
Proof.
  destruct (path_join_relative d "screenshot.png" eq_refl) as [x Hx].
  unfold pjoin. rewrite Hx, append_length. simpl. lia.
Qed.

Lemma pjoin_not_flatten_arg (d a : string) :
  In a flatten_args -> pjoin d "screenshot.png" <> a.
Proof.
  intros Ha Heq. pose proof (pjoin_screenshot_length d) as Hlen.
  rewrite Heq in Hlen. simpl in Ha.
  repeat (destruct Ha as [<-|Ha]; [simpl in Hlen; lia|]). exact Ha.
Qed.

Lemma chrome_path_not_convert (platform : string) :
  chrome_path platform <> "convert".
Proof. unfold chrome_path. destruct (String.eqb platform "darwin"); discriminate. Qed.

(** ** Every run has one of the six shapes *)

Lemma render_to_img_shape mimetypes sys mime input typ width height asset_base fs0 :
  run_shape mimetypes sys mime input typ width height asset_base fs0
    (render_to_img mimetypes sys mime input typ width height asset_base fs0).
Proof.
  unfold render_to_img, bind, lift.
  destruct (html_prepend mime input asset_base) as [e|input1] eqn:Hframe.
  { apply run_framing_raises. exact Hframe. }
  unfold with_temporary_directory.
  destruct (os_mkdtemp sys fs0) as [errno|tdir] eqn:Hdir.
  { eapply run_mkdtemp_fails; eassumption. }
  unfold open_write.
  destruct (os_open sys _ _ _ _) as [e|] eqn:Hopen.
  { eapply run_write_fails; eassumption. }
  unfold command_ex at 1.
  destruct (os_spawn sys (chrome_invocation _ _ _ _ _) _) as [o1 fs1] eqn:Hs1.
  destruct (tool_error o1) as [e|] eqn:He1.
  { destruct o1 as [errno|code out err]; simpl in He1.
    - injection He1 as <-. eapply run_browser_fails; try eassumption. reflexivity.
    - destruct (Z.eqb code 0) eqn:Hc; [discriminate|]. injection He1 as <-.
      eapply run_browser_fails; try eassumption. simpl. rewrite Hc. reflexivity. }
  destruct o1 as [errno|code1 out1 err1]; simpl in He1; [discriminate|].
  destruct (Z.eqb code1 0) eqn:Hc1; [|discriminate].
  unfold command_ex.
  destruct (os_spawn sys (convert_invocation _ _) _) as [o2 fs2] eqn:Hs2.
  destruct o2 as [errno|code2 out2 err2].
  { eapply run_convert_fails; try eassumption.
    - simpl. rewrite Hc1. reflexivity.
    - reflexivity. }
  destruct (Z.eqb code2 0) eqn:Hc2.
  - apply Z.eqb_eq in Hc2. subst code2.
    eapply run_returns; try eassumption. simpl. rewrite Hc1. reflexivity.
  - eapply run_convert_fails; try eassumption.
    + simpl. rewrite Hc1. reflexivity.
    + simpl. rewrite Hc2. reflexivity.
Qed.

(** Case analysis on the run mentioned in hypothesis [H]. *)
Ltac by_shape H :=
  match type of H with
  | context [render_to_img ?mt ?sys ?mime ?input ?typ ?w ?h ?ab ?fs0] =>
      let Hs := fresh "Hshape" in
      let run := fresh "run" in
      let Hrun := fresh "Hrun" in
      pose proof (render_to_img_shape mt sys mime input typ w h ab fs0) as Hs;
      remember (render_to_img mt sys mime input typ w h ab fs0) as run eqn:Hrun in *;
      clear Hrun; destruct Hs; cbn [events final_fs result fst snd] in *
  end.

(** Membership in a literal list, split into its cases. *)
Ltac in_cases H :=
  simpl in H;
  repeat match type of H with
         | _ \/ _ => destruct H as [H|H]
         end;
  try contradiction; try discriminate.

(** ** What the events of a run look like *)

Section Events.

Variable mimetypes : dict.
Variable sys : os.
Variables (mime : string) (input : content) (typ : string).
Variables (width height : Z) (asset_base : option string) (fs0 : paths).

Let run := render_to_img mimetypes sys mime input typ width height asset_base fs0.

Lemma write_event fn flags data failure :
  In (EvWrite fn flags data failure) (events run) ->
  html_prepend mime input asset_base = inr data
  /\ flags = (if isinstance_bytes data then "wb" else "w")
  /\ exists tdir,
       In (EvMkdtemp tdir) (events run)
       /\ fn = path_join tdir ("xxx." +:+ suffix_of mimetypes mime).
Proof.
  subst run. intros H. by_shape H; in_cases H;
    injection H as <- <- <- <-;
    (split; [assumption | split; [reflexivity |]]);
    exists tdir; (split; [left; reflexivity | reflexivity]).
Qed.

Lemma command_event c o :
  In (EvCommand c o) (events run) ->
  exists tdir,
    In (EvMkdtemp tdir) (events run)
    /\ (c = chrome_invocation (chrome_path (os_platform sys)) width height
              (path_join tdir ("xxx." +:+ suffix_of mimetypes mime)) tdir
        \/ c = convert_invocation typ tdir).
Proof.
  subst run. intros H. by_shape H; in_cases H;
    injection H as <- <-; exists tdir;
    (split; [left; reflexivity | (left; reflexivity) || (right; reflexivity)]).
Qed.

End Events.


Lemma rmtree_removes d p fs : under d p = true -> p ∉ rmtree d fs.
Proof.
  intros Hu Hin. unfold rmtree in Hin. apply elem_of_filter in Hin.
  destruct Hin as [Hf _]. congruence.
Qed.

(** * The claims *)

(** ** C1: what is written for an HTML mime *)



(** ** C2: the suffix of the temporary file *)

Lemma py_or_truthy v y : v <> EmptyString -> py_or (Some v) y = v.
Proof. destruct v; [congruence | reflexivity]. Qed.

Lemma dict_get_In d k v : dict_get d k = Some v -> In (k, v) d.
Proof.
  induction d as [|[k' v'] d IH]; simpl; [discriminate|].
  destruct (String.eqb k' k) eqn:Hk.
  - apply String.eqb_eq in Hk. intros [= ->]. left. congruence.
  - intros H. right. exact (IH H).
Qed.

Lemma dict_get_first before k v after :
  (forall kv, In kv before -> fst kv <> k) ->
  dict_get (before ++ (k, v) :: after) k = Some v.
Proof.
  induction before as [|[k' v'] before IH]; intros Hb; simpl.
  - rewrite String.eqb_refl. reflexivity.
  - destruct (String.eqb k' k) eqn:Hk.
    + apply String.eqb_eq in Hk. exfalso. apply (Hb (k', v')); [left; reflexivity | exact Hk].
    + apply IH. intros kv Hkv. apply Hb. right. exact Hkv.
Qed.

(** The loop stops at the first entry whose value is [m]. *)
Lemma suffix_loop_first before k m after suffix :
  (forall kv, In kv before -> snd kv <> m) ->
  suffix_loop (before ++ (k, m) :: after) m suffix = k.
Proof.
  induction before as [|[k' v'] before IH]; intros Hb; simpl.
  - rewrite String.eqb_refl. reflexivity.
  - destruct (String.eqb v' m) eqn:Hv.
    + apply String.eqb_eq in Hv. exfalso. apply (Hb (k', v')); [left; reflexivity | exact Hv].
    + apply IH. intros kv Hkv. apply Hb. right. exact Hkv.
Qed.

(** Without such an entry the loop leaves [suffix] as it was. *)
Lemma suffix_loop_none items m suffix :
  (forall k, ~ In (k, m) items) -> suffix_loop items m suffix = suffix.
Proof.
  induction items as [|[k v] items IH]; intros Hn; simpl; [reflexivity|].
  destruct (String.eqb v m) eqn:Hv.
  - apply String.eqb_eq in Hv. subst v. exfalso. apply (Hn k). left. reflexivity.
  - apply IH. intros k' Hk'. apply (Hn k'). right. exact Hk'.
Qed.

Lemma first_with_value (d : dict) k0 v :
  In (k0, v) d ->
  exists before k after,
    d = before ++ (k, v) :: after /\ (forall kv, In kv before -> snd kv <> v).
Proof.
  induction d as [|[k' v'] d IH]; intros Hin; [destruct Hin|].
  destruct (String.eqb v' v) eqn:Hv.
  - apply String.eqb_eq in Hv. subst v'.
    exists [], k', d. split; [reflexivity | intros kv []].
  - apply String.eqb_neq in Hv. destruct Hin as [Heq|Hin]; [congruence|].
    destruct (IH Hin) as (before & k & after & -> & Hb).
    exists ((k', v') :: before), k, after. split; [reflexivity|].
    intros kv [<-|Hkv]; [exact Hv | exact (Hb kv Hkv)].
Qed.

(** C2, as stated, fails when two aliases stand for one MIME string: in
    the table [htm -> text/html, html -> text/html, ...] the mime [html]
    is a known alias, and the derived suffix is [htm]. *)
Lemma known_alias_suffix_is_earlier_alias :
  dict_get table_two_aliases "html" = Some "text/html"
  /\ suffix_of table_two_aliases "html" = "htm"
  /\ suffix_of table_two_aliases "html" <> "html".
Proof. split; [reflexivity | split; [reflexivity | discriminate]]. Qed.

(** C2 (amended): for every alias table and every mime argument,
    - if mime is a known alias with a non-empty entry, the suffix is the
      first alias in table order that has the same entry;
    - so it is mime itself when no earlier alias has the same entry;
    - if mime is not an alias but is the entry of some alias, the suffix
      is the first such alias in table order;
    - if mime is neither an alias nor the entry of one, the suffix is the
      raw mime string. *)
Theorem suffix_is_first_alias (mimetypes : dict) (mime : string) :
  (forall v, dict_get mimetypes mime = Some v -> v <> EmptyString ->
     exists before k after,
       mimetypes = before ++ (k, v) :: after
       /\ (forall kv, In kv before -> snd kv <> v)
       /\ suffix_of mimetypes mime = k)
  /\ (forall before v after,
        mimetypes = before ++ (mime, v) :: after -> v <> EmptyString ->
        (forall kv, In kv before -> fst kv <> mime /\ snd kv <> v) ->
        suffix_of mimetypes mime = mime)
  /\ (forall before k after,
        dict_get mimetypes mime = None ->
        mimetypes = before ++ (k, mime) :: after ->
        (forall kv, In kv before -> snd kv <> mime) ->
        suffix_of mimetypes mime = k)
  /\ (dict_get mimetypes mime = None ->
      (forall k, ~ In (k, mime) mimetypes) ->
      suffix_of mimetypes mime = mime).
Proof.
  unfold suffix_of. split; [|split; [|split]].
  - intros v Hget Hv. rewrite Hget, (py_or_truthy _ _ Hv).
    destruct (first_with_value _ _ _ (dict_get_In _ _ _ Hget))
      as (before & k & after & Heq & Hb).
    exists before, k, after. repeat split; try assumption.
    rewrite Heq. apply suffix_loop_first. exact Hb.
  - intros before v after Heq Hv Hb.
    assert (Hget : dict_get mimetypes mime = Some v).
    { rewrite Heq. apply dict_get_first. intros kv Hkv. apply (Hb kv Hkv). }
    rewrite Hget, (py_or_truthy _ _ Hv), Heq.
    apply suffix_loop_first. intros kv Hkv. apply (Hb kv Hkv).
  - intros before k after Hget Heq Hb. rewrite Hget. simpl.
    rewrite Heq. apply suffix_loop_first. exact Hb.
  - intros Hget Hn. rewrite Hget. simpl. apply suffix_loop_none. exact Hn.
Qed.

Lemma suffix_is_first_alias_witness :
  suffix_of table_two_aliases "jpg" = "jpeg"
  /\ suffix_of table_two_aliases "htm" = "htm"
  /\ suffix_of table_two_aliases "image/jpeg" = "jpeg"
  /\ suffix_of table_two_aliases "foo/bar" = "foo/bar".
Proof.
  split; [|split; [|split]].
  - destruct (proj1 (suffix_is_first_alias table_two_aliases "jpg") "image/jpeg")
      as (before & k & after & Heq & Hb & Hs); [reflexivity | discriminate |].
    rewrite Hs. clear Hs. unfold table_two_aliases in Heq.
    destruct before as [|e0 [|e1 [|e2 [|e3 before]]]]; simpl in Heq.
    + discriminate.
    + discriminate.
    + congruence.
    + injection Heq as <- <- <- _.
      exfalso. apply (Hb ("jpeg", "image/jpeg")); [right; right; left|]; reflexivity.
    + injection Heq as _ _ _ _ Heq. destruct before; discriminate.
  - apply (proj1 (proj2 (suffix_is_first_alias table_two_aliases "htm"))
             [] "text/html" (tl table_two_aliases));
      [reflexivity | discriminate | intros kv []].
  - apply (proj1 (proj2 (proj2 (suffix_is_first_alias table_two_aliases "image/jpeg")))
             (firstn 2 table_two_aliases) "jpeg" (skipn 3 table_two_aliases));
      [reflexivity | reflexivity |].
    intros kv Hkv. in_cases Hkv; subst kv; discriminate.
  - apply (proj2 (proj2 (proj2 (suffix_is_first_alias table_two_aliases "foo/bar"))));
      [reflexivity|].
    intros k Hk. in_cases Hk.
Defined.

(** ** C3: flattening is for every output type but png *)

Lemma convert_args_png tdir a :
  In a flatten_args -> ~ In a (args (convert_invocation "png" tdir)).
Proof.
  intros Ha Hin. simpl in Hin. destruct Hin as [Hp|Hin].
  - exact (pjoin_not_flatten_arg tdir a Ha Hp).
  - simpl in Ha. in_cases Ha; subst a; in_cases Hin.
Qed.

(** C3: in every call, the argument list handed to the converter
    contains the run [-background white -flatten -alpha off] if and only
    if [typ] is not [png]; and when [typ] is [png] none of these five
    arguments occurs in it. *)
Theorem flatten_iff_not_png mimetypes sys mime input typ width height
    asset_base fs0 c o :
  In (EvCommand c o)
     (events (render_to_img mimetypes sys mime input typ width height asset_base fs0)) ->
  cmd c = "convert" ->
  ((exists l1 l2,
      args c = l1 ++ ["-background"; "white"; "-flatten"; "-alpha"; "off"] ++ l2)
   <-> typ <> "png")
  /\ (typ = "png" ->
      forall a, In a ["-background"; "white"; "-flatten"; "-alpha"; "off"] ->
                ~ In a (args c)).
Proof.
  intros Hin Hcmd. apply command_event in Hin.
  destruct Hin as (tdir & _ & [-> | ->]).
  { exfalso. exact (chrome_path_not_convert _ Hcmd). }
  assert (Hpng : typ = "png" ->
            forall a, In a flatten_args -> ~ In a (args (convert_invocation typ tdir))).
  { intros ->. apply convert_args_png. }
  split; [split|exact Hpng].
  - intros (l1 & l2 & Hargs) Htyp.
    apply (Hpng Htyp "-background"); [left; reflexivity|].
    rewrite Hargs. apply in_or_app. right. left. reflexivity.
  - intros Htyp. exists [pjoin tdir "screenshot.png"; "-trim"; "+repage"], [typ +:+ ":-"].
    cbn [args convert_invocation]. unfold moreargs.
    apply String.eqb_neq in Htyp. rewrite Htyp. reflexivity.
Qed.

Lemma flatten_iff_not_png_witness :
  In (EvCommand (convert_invocation "jpg" "/tmp/t") (LaunchFailed 2))
     (events (render_to_img table_two_aliases sys_convert_missing "svg" (Text "<svg/>")
                "jpg" 1000 2000 None ∅))
  /\ cmd (convert_invocation "jpg" "/tmp/t") = "convert"
  /\ ((exists l1 l2,
         args (convert_invocation "jpg" "/tmp/t")
         = l1 ++ ["-background"; "white"; "-flatten"; "-alpha"; "off"] ++ l2)
      <-> "jpg" <> "png")
  /\ ("jpg" = "png" ->
      forall a, In a ["-background"; "white"; "-flatten"; "-alpha"; "off"] ->
                ~ In a (args (convert_invocation "jpg" "/tmp/t"))).
Proof.
  split; [do 3 right; left; reflexivity|].
  split; [reflexivity|].
  apply (flatten_iff_not_png table_two_aliases sys_convert_missing "svg" (Text "<svg/>")
           "jpg" 1000 2000 None ∅ _ (LaunchFailed 2)).
  - do 3 right; left; reflexivity.
  - reflexivity.
Defined.

(** ** C4: the temporary directory is gone on every way out *)

(** C4: whatever the outcome of a call (bytes returned, or any exception
    raised), a temporary directory the call created does not exist when
    the call is over, and neither does any path below it. *)
Theorem temporary_directory_removed mimetypes sys mime input typ width height
    asset_base fs0 tdir :
  In (EvMkdtemp tdir)
     (events (render_to_img mimetypes sys mime input typ width height asset_base fs0)) ->
  (tdir ∉ final_fs (render_to_img mimetypes sys mime input typ width height asset_base fs0))
  /\ (forall p, under tdir p = true ->
        p ∉ final_fs (render_to_img mimetypes sys mime input typ width height asset_base fs0)).
Proof.
  intros Hin.
  assert (Hall : forall p, under tdir p = true ->
            p ∉ final_fs (render_to_img mimetypes sys mime input typ width height
                            asset_base fs0)).
  { intros p Hp. by_shape Hin; in_cases Hin; injection Hin as <-;
      apply rmtree_removes; exact Hp. }
  split; [|exact Hall].
  apply Hall. unfold under. rewrite String.eqb_refl. reflexivity.
Qed.

Lemma temporary_directory_removed_witness :
  In (EvMkdtemp "/tmp/t")
     (events (render_to_img table_two_aliases sys_chrome_fails "html" (Text "<p>hi</p>")
                "png" 1000 2000 None {["/etc"]}))
  /\ ("/tmp/t" ∉ final_fs (render_to_img table_two_aliases sys_chrome_fails "html"
                             (Text "<p>hi</p>") "png" 1000 2000 None {["/etc"]}))
  /\ ("/tmp/t/core" ∉ final_fs (render_to_img table_two_aliases sys_chrome_fails "html"
                                  (Text "<p>hi</p>") "png" 1000 2000 None {["/etc"]})).
Proof.
  split; [left; reflexivity|].
  destruct (temporary_directory_removed table_two_aliases sys_chrome_fails "html"
              (Text "<p>hi</p>") "png" 1000 2000 None {["/etc"]} "/tmp/t")
    as [Hdir Hbelow]; [left; reflexivity|].
  split; [exact Hdir | apply Hbelow; reflexivity].
Defined.

(** ** C5: the browser invocation *)

(** C5: for every width and height (and every other argument), once the
    input file is written the browser is launched; and any process the
    call launches other than the converter is the browser executable with
    exactly the arguments [--headless --disable-gpu --no-sandbox
    --screenshot --window-size=<width>,<height>
    --default-background-color=00000000 <input file>], where the input
    file is the file that was written, and with the temporary directory as
    working directory. *)
Theorem browser_invocation mimetypes sys mime input typ width height asset_base fs0 :
  let run := render_to_img mimetypes sys mime input typ width height asset_base fs0 in
  let browser (tdir fn : string) :=
    {| cmd := chrome_path (os_platform sys);
       args := ["--headless"; "--disable-gpu"; "--no-sandbox"; "--screenshot";
                "--window-size=" +:+ Str.of_int width +:+ "," +:+ Str.of_int height;
                "--default-background-color=00000000";
                fn];
       cwd := Some tdir;
       text := None |} in
  (forall fn flags data,
     In (EvWrite fn flags data None) (events run) ->
     exists tdir o,
       In (EvMkdtemp tdir) (events run) /\ In (EvCommand (browser tdir fn) o) (events run))
  /\ (forall c o,
        In (EvCommand c o) (events run) -> cmd c <> "convert" ->
        exists tdir fn flags data,
          In (EvMkdtemp tdir) (events run)
          /\ In (EvWrite fn flags data None) (events run)
          /\ c = browser tdir fn).
Proof.
  intros run browser. subst run. split.
  - intros fn flags data Hin. by_shape Hin; in_cases Hin;
      injection Hin as <- <- <-; exists tdir; eexists;
      (split; [left; reflexivity | right; right; left; reflexivity]).
  - intros c o Hin Hcmd. by_shape Hin; in_cases Hin; injection Hin as <- <-;
      try (exfalso; apply Hcmd; reflexivity);
      exists tdir; do 3 eexists;
      (split; [left; reflexivity | split; [right; left; reflexivity | reflexivity]]).
Qed.

Lemma browser_invocation_witness :
  In (EvWrite "/tmp/t/xxx.svg" "w" (Text "<svg/>") None)
     (events (render_to_img table_one_to_one sys_ok "image/svg+xml" (Text "<svg/>")
                "png" 640 480 None ∅))
  /\ exists tdir o,
       In (EvMkdtemp tdir)
          (events (render_to_img table_one_to_one sys_ok "image/svg+xml" (Text "<svg/>")
                     "png" 640 480 None ∅))
       /\ In (EvCommand
                {| cmd := "google-chrome";
                   args := ["--headless"; "--disable-gpu"; "--no-sandbox"; "--screenshot";
                            "--window-size=640,480";
                            "--default-background-color=00000000";
                            "/tmp/t/xxx.svg"];
                   cwd := Some tdir;
                   text := None |} o)
             (events (render_to_img table_one_to_one sys_ok "image/svg+xml" (Text "<svg/>")
                        "png" 640 480 None ∅)).
Proof.
  split; [right; left; reflexivity|].
  apply (proj1 (browser_invocation table_one_to_one sys_ok "image/svg+xml" (Text "<svg/>")
                  "png" 640 480 None ∅) "/tmp/t/xxx.svg" "w" (Text "<svg/>")).
  right; left; reflexivity.
Defined.

(** ** C6: the converter invocation and the returned bytes *)

Lemma convert_invocation_explicit typ tdir :
  convert_invocation typ tdir
  = {| cmd := "convert";
       args := [(if negb (Str.truthy tdir) || Str.ends_with_sep tdir
                 then tdir else tdir +:+ "/") +:+ "screenshot.png";
                "-trim"; "+repage"]
                 ++ (if String.eqb typ "png" then []
                     else ["-background"; "white"; "-flatten"; "-alpha"; "off"])
                 ++ [typ +:+ ":-"];
       cwd := None;
       text := Some false |}.
Proof.
  unfold convert_invocation, pjoin, path_join, moreargs, flatten_args.
  cbn [String.prefix].
  destruct (negb (Str.truthy tdir) || Str.ends_with_sep tdir);
    [reflexivity | rewrite append_assoc; reflexivity].
Qed.

(** C6: the converter, whenever the call launches it, is [convert] run on
    the file [screenshot.png] in the temporary directory (the directory
    name, a separator unless the name is empty or already ends with one,
    then [screenshot.png]) with the arguments [-trim +repage], then the
    flatten arguments unless [typ] is [png], then [<typ>:-], with binary
    output; and when the call returns bytes, they are the standard output
    captured from that invocation. *)
Theorem convert_invocation_and_result mimetypes sys mime input typ width height
    asset_base fs0 :
  let run := render_to_img mimetypes sys mime input typ width height asset_base fs0 in
  let converter (tdir : string) :=
    {| cmd := "convert";
       args := [(if negb (Str.truthy tdir) || Str.ends_with_sep tdir
                 then tdir else tdir +:+ "/") +:+ "screenshot.png";
                "-trim"; "+repage"]
                 ++ (if String.eqb typ "png" then []
                     else ["-background"; "white"; "-flatten"; "-alpha"; "off"])
                 ++ [typ +:+ ":-"];
       cwd := None;
       text := Some false |} in
  (forall c o,
     In (EvCommand c o) (events run) -> cmd c = "convert" ->
     exists tdir, In (EvMkdtemp tdir) (events run) /\ c = converter tdir)
  /\ (forall out,
        result run = inr out ->
        exists tdir code err,
          In (EvMkdtemp tdir) (events run)
          /\ In (EvCommand (converter tdir) (Exited code out err)) (events run)).
Proof.
  intros run converter. subst run converter. cbv beta. split.
  - intros c o Hin Hcmd. apply command_event in Hin.
    destruct Hin as (tdir & Hdir & [-> | ->]).
    + exfalso. exact (chrome_path_not_convert _ Hcmd).
    + exists tdir. split; [exact Hdir | apply convert_invocation_explicit].
  - intros out Hres. by_shape Hres; try discriminate.
    injection Hres as <-. exists tdir, 0%Z, err.
    rewrite <- convert_invocation_explicit.
    split; [left; reflexivity | do 3 right; left; reflexivity].
Qed.

Lemma convert_invocation_and_result_witness :
  result (render_to_img table_one_to_one sys_ok "html" (Text "<p>hi</p>")
            "jpg" 1000 2000 None ∅) = inr ok_bytes
  /\ exists code err,
       In (EvCommand
             {| cmd := "convert";
                args := ["/tmp/t/screenshot.png"; "-trim"; "+repage";
                         "-background"; "white"; "-flatten"; "-alpha"; "off";
                         "jpg:-"];
                cwd := None;
                text := Some false |} (Exited code ok_bytes err))
          (events (render_to_img table_one_to_one sys_ok "html" (Text "<p>hi</p>")
                     "jpg" 1000 2000 None ∅)).
Proof.
  split; [reflexivity|].
  destruct (proj2 (convert_invocation_and_result table_one_to_one sys_ok "html"
                     (Text "<p>hi</p>") "jpg" 1000 2000 None ∅) ok_bytes eq_refl)
    as (tdir & code & err & Hdir & Hin).
  assert (Ht : tdir = "/tmp/t").
  { in_cases Hdir. injection Hdir as <-. reflexivity. }
  subst tdir. exists code, err. exact Hin.
Defined.

(** ** C7: a failing tool is a hard error *)

Lemma tool_error_failed o : tool_failed o -> tool_error o = Some (failure_of o).
Proof.
  destruct o as [errno|code out err]; simpl; [reflexivity|].
  intros Hc. apply Z.eqb_neq in Hc. rewrite Hc. reflexivity.
Qed.

(** C7: if a process launched by the call (browser or converter) cannot
    be started or exits non-zero, the call raises the corresponding
    exception, so no bytes are returned; the failed launch is the last one
    the call makes (only the removal of the temporary directory follows),
    and the same executable was not launched before it. *)
Theorem tool_failure_propagates mimetypes sys mime input typ width height
    asset_base fs0 c o :
  In (EvCommand c o)
     (events (render_to_img mimetypes sys mime input typ width height asset_base fs0)) ->
  tool_failed o ->
  result (render_to_img mimetypes sys mime input typ width height asset_base fs0)
  = inl (failure_of o)
  /\ exists before tdir,
       events (render_to_img mimetypes sys mime input typ width height asset_base fs0)
       = before ++ [EvCommand c o; EvCleanup tdir]
       /\ (forall c' o', In (EvCommand c' o') before -> cmd c' <> cmd c).
Proof.
  intros Hin Hfail. apply tool_error_failed in Hfail.
  by_shape Hin; in_cases Hin; injection Hin as <- <-; try congruence.
  - split; [congruence|].
    eexists [_; _], tdir. split; [reflexivity|].
    intros c' o' Hb. in_cases Hb.
  - split; [congruence|].
    eexists [_; _; _], tdir. split; [reflexivity|].
    intros c' o' Hb. in_cases Hb. injection Hb as <- _.
    apply chrome_path_not_convert.
  - simpl in Hfail. discriminate.
Qed.

Lemma tool_failure_propagates_witness :
  In (EvCommand (convert_invocation "png" "/tmp/t") (LaunchFailed 2))
     (events (render_to_img table_one_to_one sys_convert_missing "html" (Text "<p>hi</p>")
                "png" 1000 2000 None ∅))
  /\ tool_failed (LaunchFailed 2)
  /\ result (render_to_img table_one_to_one sys_convert_missing "html" (Text "<p>hi</p>")
               "png" 1000 2000 None ∅) = inl (OSError 2)
  /\ exists before tdir,
       events (render_to_img table_one_to_one sys_convert_missing "html" (Text "<p>hi</p>")
                 "png" 1000 2000 None ∅)
       = before ++ [EvCommand (convert_invocation "png" "/tmp/t") (LaunchFailed 2);
                    EvCleanup tdir]
       /\ (forall c' o', In (EvCommand c' o') before -> cmd c' <> "convert").
Proof.
  split; [do 3 right; left; reflexivity|].
  split; [exact I|].
  apply (tool_failure_propagates table_one_to_one sys_convert_missing "html"
           (Text "<p>hi</p>") "png" 1000 2000 None ∅
           (convert_invocation "png" "/tmp/t") (LaunchFailed 2)).
  - do 3 right; left; reflexivity.
  - exact I.
Defined.

(** ** C8: the browser executable follows the platform *)

(** C8: on the platform [darwin] the browser executable is the
    application-bundle path, on every other platform it is
    [google-chrome]; and that path is the executable of every process the
    call launches other than the converter. *)
Theorem chrome_by_platform mimetypes sys mime input typ width height asset_base fs0 :
  (os_platform sys = "darwin" ->
   chrome_path (os_platform sys)
   = "/Applications/Google Chrome.app/Contents/MacOS/Google Chrome")
  /\ (os_platform sys <> "darwin" -> chrome_path (os_platform sys) = "google-chrome")
  /\ (forall c o,
        In (EvCommand c o)
           (events (render_to_img mimetypes sys mime input typ width height
                      asset_base fs0)) ->
        cmd c <> "convert" ->
        cmd c = chrome_path (os_platform sys)).
Proof.
  split; [|split].
  - intros ->. reflexivity.
  - intros Hne. unfold chrome_path. apply String.eqb_neq in Hne. rewrite Hne. reflexivity.
  - intros c o Hin Hcmd. apply command_event in Hin.
    destruct Hin as (tdir & _ & [-> | ->]); [reflexivity|].
    exfalso. apply Hcmd. reflexivity.
Qed.

Lemma chrome_by_platform_witness :
  os_platform sys_chrome_fails = "darwin"
  /\ chrome_path (os_platform sys_chrome_fails)
     = "/Applications/Google Chrome.app/Contents/MacOS/Google Chrome"
  /\ os_platform sys_ok <> "darwin"
  /\ chrome_path (os_platform sys_ok) = "google-chrome".
Proof.
  split; [reflexivity|].
  split.
  - apply (proj1 (chrome_by_platform table_one_to_one sys_chrome_fails "html"
                    (Text "<p>hi</p>") "png" 1000 2000 None ∅)).
    reflexivity.
  - split; [discriminate|].
    apply (proj1 (proj2 (chrome_by_platform table_one_to_one sys_ok "html"
                           (Text "<p>hi</p>") "png" 1000 2000 None ∅))).
    discriminate.
Defined.

(** ** C9: bytes input with an HTML mime *)

(** C9: when the input is [bytes] and the mime contains [html], the call
    raises [TypeError] with the file system untouched and nothing done
    (no temporary directory, no file, no process); and a file is opened
    in mode [wb] only when the input is [bytes] and the mime does not
    contain [html]. *)
Theorem bytes_html_type_error mimetypes sys mime input typ width height asset_base fs0 :
  (Str.str_in "html" mime = true ->
   forall b, input = Binary b ->
     render_to_img mimetypes sys mime input typ width height asset_base fs0
     = (fs0, [], inl TypeError))
  /\ (forall fn data failure,
        In (EvWrite fn "wb" data failure)
           (events (render_to_img mimetypes sys mime input typ width height
                      asset_base fs0)) ->
        (exists b, input = Binary b) /\ Str.str_in "html" mime = false).
Proof.
  split.
  - intros Hhtml b ->. unfold render_to_img, bind, lift, html_prepend.
    rewrite Hhtml. reflexivity.
  - intros fn data failure Hin. apply write_event in Hin.
    destruct Hin as (Hframe & Hflags & _).
    destruct data as [s|b]; simpl in Hflags; [discriminate|].
    unfold html_prepend in Hframe.
    destruct (Str.str_in "html" mime).
    + destruct input as [s|b']; simpl in Hframe; [|discriminate].
      destruct asset_base; simpl in Hframe; discriminate.
    + injection Hframe as ->. split; [exists b; reflexivity | reflexivity].
Qed.

Lemma bytes_html_type_error_witness :
  Str.str_in "html" "text/html" = true
  /\ render_to_img table_one_to_one sys_ok "text/html" (Binary ok_bytes)
       "png" 1000 2000 (Some "/a") ∅
     = (∅, [], inl TypeError)
  /\ In (EvWrite "/tmp/t/xxx.png" "wb" (Binary ok_bytes) None)
        (events (render_to_img table_one_to_one sys_ok "image/png" (Binary ok_bytes)
                   "jpg" 1000 2000 None ∅))
  /\ (exists b, Binary ok_bytes = Binary b)
  /\ Str.str_in "html" "image/png" = false.
Proof.
  split; [reflexivity|].
  split.
  - apply (proj1 (bytes_html_type_error table_one_to_one sys_ok "text/html"
                    (Binary ok_bytes) "png" 1000 2000 (Some "/a") ∅) eq_refl ok_bytes).
    reflexivity.
  - split; [right; left; reflexivity|].
    apply (proj2 (bytes_html_type_error table_one_to_one sys_ok "image/png"
                    (Binary ok_bytes) "jpg" 1000 2000 None ∅)
             "/tmp/t/xxx.png" (Binary ok_bytes) None).
    right; left; reflexivity.
Defined.

(** ** C10: the framing follows the substring test, not the alias table *)

Lemma framed_differs (pre s : string) : Text (pre +:+ meta_directive +:+ s) <> Text s.
Proof.
  intros [= H]. apply (f_equal String.length) in H.
  rewrite !append_length in H. simpl in H. lia.
Qed.

(** C10: the framing step changes the input exactly when [html] occurs
    in the mime argument: when it occurs, text input gets the meta
    directive in front (and, with an asset base, the base-href directive
    in front of that) and bytes input raises; when it does not occur the
    input is left as it is.  [application/xhtml+xml] is a mime in which it
    occurs.  Whatever the alias table, the content written to the input
    file is the result of this step. *)
Theorem html_framing_iff_substring mime input asset_base :
  (occurs_in "html" mime ->
   html_prepend mime input asset_base
   = match input with
     | Text s =>
         inr (Text (match asset_base with
                    | Some ab => base_directive ab +:+ meta_directive +:+ s
                    | None => meta_directive +:+ s
                    end))
     | Binary _ => inl TypeError
     end)
  /\ (html_prepend mime input asset_base = inr input <-> ~ occurs_in "html" mime)
  /\ occurs_in "html" "application/xhtml+xml"
  /\ (forall mimetypes sys typ width height fs0 fn flags data failure,
        In (EvWrite fn flags data failure)
           (events (render_to_img mimetypes sys mime input typ width height
                      asset_base fs0)) ->
        html_prepend mime input asset_base = inr data).
Proof.
  assert (Hyes : occurs_in "html" mime ->
            html_prepend mime input asset_base
            = match input with
              | Text s =>
                  inr (Text (match asset_base with
                             | Some ab => base_directive ab +:+ meta_directive +:+ s
                             | None => meta_directive +:+ s
                             end))
              | Binary _ => inl TypeError
              end).
  { intros Hocc. apply str_in_spec in Hocc. unfold html_prepend. rewrite Hocc.
    destruct input as [s|b]; [|reflexivity].
    destruct asset_base; reflexivity. }
  split; [exact Hyes|]. split; [|split].
  - split.
    + intros Hid Hocc. rewrite (Hyes Hocc) in Hid.
      destruct input as [s|b]; [|discriminate].
      injection Hid as Hid. destruct asset_base as [ab|].
      * apply (framed_differs (base_directive ab) s). congruence.
      * apply (framed_differs EmptyString s). rewrite append_nil. congruence.
    + intros Hno. apply str_in_false in Hno. unfold html_prepend.
      rewrite Hno. reflexivity.
  - exists "application/x", "+xml". reflexivity.
  - intros mimetypes sys typ width height fs0 fn flags data failure Hin.
    apply write_event in Hin. destruct Hin as (Hframe & _). exact Hframe.
Qed.

Lemma html_framing_iff_substring_witness :
  occurs_in "html" "application/xhtml+xml"
  /\ html_prepend "application/xhtml+xml" (Text "<p/>") (Some "/a")
     = inr (Text (base_directive "/a" +:+ meta_directive +:+ "<p/>"))
  /\ ~ occurs_in "html" "svg"
  /\ html_prepend "svg" (Text "<svg/>") (Some "/a") = inr (Text "<svg/>").
Proof.
  assert (Hx : occurs_in "html" "application/xhtml+xml").
  { exists "application/x", "+xml". reflexivity. }
  assert (Hsvg : ~ occurs_in "html" "svg").
  { apply str_in_false. reflexivity. }
  split; [exact Hx|]. split.
  - apply (proj1 (html_framing_iff_substring "application/xhtml+xml" (Text "<p/>")
                    (Some "/a")) Hx).
  - split; [exact Hsvg|].
    apply (proj2 (proj1 (proj2 (html_framing_iff_substring "svg" (Text "<svg/>")
                                  (Some "/a")))) Hsvg).
Defined.


(** * Further properties of [render_to_img] *)

(** ** The order of what a call does *)

(** Case analysis on the run mentioned in the goal. *)
Ltac goal_by_shape :=
  match goal with
  | |- context [render_to_img ?mt ?sys ?mime ?input ?typ ?w ?h ?ab ?fs0] =>
      let Hs := fresh "Hshape" in
      let run := fresh "run" in
      let Hrun := fresh "Hrun" in
      pose proof (render_to_img_shape mt sys mime input typ w h ab fs0) as Hs;
      remember (render_to_img mt sys mime input typ w h ab fs0) as run eqn:Hrun in *;
      clear Hrun; destruct Hs; cbn [events final_fs result fst snd] in *
  end.

(** X1: a call launches nothing, the browser only, or the browser and
    then the converter: never more than two processes, never the
    converter first, never an executable twice. *)
Theorem launches_at_most_browser_then_converter mimetypes sys mime input typ
    width height asset_base fs0 :
  exists n,
    launched (events (render_to_img mimetypes sys mime input typ width height
                        asset_base fs0))
    = firstn n [chrome_path (os_platform sys); "convert"].
Proof.
  goal_by_shape.
  - exists 0. reflexivity.
  - exists 0. reflexivity.
  - exists 0. reflexivity.
  - exists 1. reflexivity.
  - exists 2. reflexivity.
  - exists 2. reflexivity.
Qed.

(** X2: a call that does anything at all creates one temporary directory
    first and removes that same directory last; in between no directory
    is created or removed. *)
Theorem one_directory_created_first_removed_last mimetypes sys mime input typ
    width height asset_base fs0 :
  events (render_to_img mimetypes sys mime input typ width height asset_base fs0) = []
  \/ exists tdir mid,
       events (render_to_img mimetypes sys mime input typ width height asset_base fs0)
       = EvMkdtemp tdir :: mid ++ [EvCleanup tdir]
       /\ forallb (fun e => negb (is_tmpdir_event e)) mid = true.
Proof.
  goal_by_shape;
    [left; reflexivity | left; reflexivity | right; exists tdir ..].
  - exists [EvWrite (path_join tdir ("xxx." +:+ suffix_of mimetypes mime))
              (if isinstance_bytes input1 then "wb" else "w") input1 (Some e)].
    split; reflexivity.
  - eexists [_; _]. split; reflexivity.
  - eexists [_; _; _]. split; reflexivity.
  - eexists [_; _; _]. split; reflexivity.
Qed.

(** X3: when opening or writing the input file raises an exception
    (an [OSError], a [ValueError] for a NUL character in the name, a
    [UnicodeEncodeError], ...), the call raises that same exception and
    launches no process. *)
Theorem write_failure_launches_nothing mimetypes sys mime input typ width height
    asset_base fs0 fn flags data e :
  In (EvWrite fn flags data (Some e))
     (events (render_to_img mimetypes sys mime input typ width height asset_base fs0)) ->
  result (render_to_img mimetypes sys mime input typ width height asset_base fs0)
  = inl e
  /\ launched (events (render_to_img mimetypes sys mime input typ width height
                         asset_base fs0)) = [].
Proof.
  intros Hin. by_shape Hin; in_cases Hin.
  injection Hin as _ _ _ <-. split; reflexivity.
Qed.

Lemma write_failure_launches_nothing_witness :
  In (EvWrite "/tmp/t/xxx.html" "w" (Text (meta_directive +:+ "<p>hi</p>"))
        (Some UnicodeEncodeError))
     (events (render_to_img table_one_to_one sys_write_fails "html" (Text "<p>hi</p>")
                "png" 1000 2000 None ∅))
  /\ result (render_to_img table_one_to_one sys_write_fails "html" (Text "<p>hi</p>")
               "png" 1000 2000 None ∅) = inl UnicodeEncodeError
  /\ launched (events (render_to_img table_one_to_one sys_write_fails "html"
                         (Text "<p>hi</p>") "png" 1000 2000 None ∅)) = [].
Proof.
  split; [right; left; reflexivity|].
  apply (write_failure_launches_nothing table_one_to_one sys_write_fails "html"
           (Text "<p>hi</p>") "png" 1000 2000 None ∅ "/tmp/t/xxx.html" "w"
           (Text (meta_directive +:+ "<p>hi</p>")) UnicodeEncodeError).
  right; left; reflexivity.
Defined.

(** X4: when no temporary directory can be created the call does nothing
    (no file, no process), leaves the file system as it was, and raises:
    [TypeError] when the input is [bytes] and the mime contains [html]
    (the framing of line 26 fails first), and otherwise the [OSError] of
    the failed creation. *)
Theorem no_directory_nothing_done mimetypes sys mime input typ width height
    asset_base fs0 errno :
  os_mkdtemp sys fs0 = inl errno ->
  events (render_to_img mimetypes sys mime input typ width height asset_base fs0) = []
  /\ final_fs (render_to_img mimetypes sys mime input typ width height asset_base fs0)
     = fs0
  /\ result (render_to_img mimetypes sys mime input typ width height asset_base fs0)
     = inl (if Str.str_in "html" mime && isinstance_bytes input
            then TypeError else OSError errno).
Proof.
  intros Hfail. unfold render_to_img, bind, lift, html_prepend.
  destruct (Str.str_in "html" mime); destruct input as [s|b]; simpl.
  - destruct asset_base; simpl; unfold with_temporary_directory; rewrite Hfail;
      repeat split.
  - repeat split.
  - unfold with_temporary_directory. rewrite Hfail. repeat split.
  - unfold with_temporary_directory. rewrite Hfail. repeat split.
Qed.

Lemma no_directory_nothing_done_witness :
  os_mkdtemp sys_no_tmpdir ∅ = inl 13%Z
  /\ events (render_to_img table_one_to_one sys_no_tmpdir "svg" (Text "<svg/>")
               "png" 1000 2000 None ∅) = []
  /\ final_fs (render_to_img table_one_to_one sys_no_tmpdir "svg" (Text "<svg/>")
                 "png" 1000 2000 None ∅) = ∅
  /\ result (render_to_img table_one_to_one sys_no_tmpdir "svg" (Text "<svg/>")
               "png" 1000 2000 None ∅) = inl (OSError 13)
  /\ result (render_to_img table_one_to_one sys_no_tmpdir "text/html" (Binary ok_bytes)
               "png" 1000 2000 None ∅) = inl TypeError.
Proof.
  split; [reflexivity|].
  destruct (no_directory_nothing_done table_one_to_one sys_no_tmpdir "svg"
              (Text "<svg/>") "png" 1000 2000 None ∅ 13%Z eq_refl) as (He & Hf & Hr).
  destruct (no_directory_nothing_done table_one_to_one sys_no_tmpdir "text/html"
              (Binary ok_bytes) "png" 1000 2000 None ∅ 13%Z eq_refl) as (_ & _ & Hr').
  split; [exact He | split; [exact Hf | split; [exact Hr | exact Hr']]].
Defined.

Lemma tool_error_none o :
  tool_error o = None -> exists out err, o = Exited 0 out err.
Proof.
  destruct o as [errno|code out err]; simpl; [discriminate|].
  destruct (Z.eqb code 0) eqn:Hc; [|discriminate].
  apply Z.eqb_eq in Hc. subst code. intros _. exists out, err. reflexivity.
Qed.

(** X5: the converter is launched only after the input file was written
    without error and the browser, launched just before it, exited with
    status 0. *)
Theorem converter_only_after_browser_success mimetypes sys mime input typ
    width height asset_base fs0 c o :
  In (EvCommand c o)
     (events (render_to_img mimetypes sys mime input typ width height asset_base fs0)) ->
  cmd c = "convert" ->
  exists tdir fn flags data b out err rest,
    events (render_to_img mimetypes sys mime input typ width height asset_base fs0)
    = EvMkdtemp tdir :: EvWrite fn flags data None
        :: EvCommand b (Exited 0 out err) :: EvCommand c o :: rest
    /\ cmd b = chrome_path (os_platform sys).
Proof.
  intros Hin Hcmd.
  by_shape Hin; in_cases Hin; injection Hin as <- <-;
    try (exfalso; exact (chrome_path_not_convert _ Hcmd));
    match goal with
    | Hok : tool_error _ = None |- _ =>
        destruct (tool_error_none _ Hok) as (out1 & err1 & ->)
    end;
    exists tdir; do 3 eexists; eexists; exists out1, err1; eexists;
    (split; reflexivity).
Qed.

Lemma converter_only_after_browser_success_witness :
  In (EvCommand (convert_invocation "png" "/tmp/t") (LaunchFailed 2))
     (events (render_to_img table_one_to_one sys_convert_missing "html" (Text "<p>hi</p>")
                "png" 1000 2000 None ∅))
  /\ cmd (convert_invocation "png" "/tmp/t") = "convert"
  /\ exists tdir fn flags data b out err rest,
       events (render_to_img table_one_to_one sys_convert_missing "html"
                 (Text "<p>hi</p>") "png" 1000 2000 None ∅)
       = EvMkdtemp tdir :: EvWrite fn flags data None
           :: EvCommand b (Exited 0 out err)
           :: EvCommand (convert_invocation "png" "/tmp/t") (LaunchFailed 2) :: rest
       /\ cmd b = chrome_path (os_platform sys_convert_missing).
Proof.
  split; [do 3 right; left; reflexivity|].
  split; [reflexivity|].
  apply (converter_only_after_browser_success table_one_to_one sys_convert_missing
           "html" (Text "<p>hi</p>") "png" 1000 2000 None ∅
           (convert_invocation "png" "/tmp/t") (LaunchFailed 2)).
  - do 3 right; left; reflexivity.
  - reflexivity.
Defined.

(** X6: the call returns bytes [out] exactly when the converter was
    launched and exited with status 0 with [out] on its standard
    output. *)
Theorem returns_iff_converter_exits_zero mimetypes sys mime input typ width height
    asset_base fs0 out :
  result (render_to_img mimetypes sys mime input typ width height asset_base fs0)
  = inr out
  <-> exists c err,
        In (EvCommand c (Exited 0 out err))
           (events (render_to_img mimetypes sys mime input typ width height
                      asset_base fs0))
        /\ cmd c = "convert".
Proof.
  split.
  - intros Hres. by_shape Hres; try discriminate. injection Hres as <-.
    exists (convert_invocation typ tdir), err.
    split; [do 3 right; left; reflexivity | reflexivity].
  - intros (c & err & Hin & Hcmd).
    by_shape Hin; in_cases Hin; injection Hin as Hc Ho; subst c;
      try (exfalso; exact (chrome_path_not_convert _ Hcmd)).
    + subst o2.
      match goal with Hf : tool_error _ = Some _ |- _ => simpl in Hf; discriminate end.
    + congruence.
Qed.

(** ** The input file *)

Lemma path_join_plain d b :
  plain_dir d -> String.prefix "/" b = false -> path_join d b = d +:+ "/" +:+ b.
Proof.
  intros [Ht He] Hb. unfold path_join. rewrite Hb, Ht, He. reflexivity.
Qed.

Lemma prefix_append a b : String.prefix a (a +:+ b) = true.
Proof. apply prefix_spec. exists b. reflexivity. Qed.

Lemma under_child d b : under d (d +:+ "/" +:+ b) = true.
Proof.
  unfold under. rewrite <- append_assoc, prefix_append. apply orb_true_r.
Qed.

(** X7: when the temporary directory has a plain name (not empty, no
    trailing separator), the one file the call writes is
    [<tdir>/xxx.<suffix>], it lies below the temporary directory, and it
    does not exist when the call is over. *)
Theorem input_file_in_directory_and_removed mimetypes sys mime input typ width
    height asset_base fs0 tdir fn flags data failure :
  plain_dir tdir ->
  In (EvMkdtemp tdir)
     (events (render_to_img mimetypes sys mime input typ width height asset_base fs0)) ->
  In (EvWrite fn flags data failure)
     (events (render_to_img mimetypes sys mime input typ width height asset_base fs0)) ->
  fn = tdir +:+ "/xxx." +:+ suffix_of mimetypes mime
  /\ under tdir fn = true
  /\ (fn ∉ final_fs (render_to_img mimetypes sys mime input typ width height
                       asset_base fs0)).
Proof.
  intros Hplain Hdir Hin.
  assert (Hfn : fn = tdir +:+ "/" +:+ "xxx." +:+ suffix_of mimetypes mime).
  { by_shape Hin; in_cases Hin; injection Hin as <- _ _ _;
      in_cases Hdir; injection Hdir as ->;
      apply path_join_plain; [exact Hplain | reflexivity | exact Hplain | reflexivity
                              | exact Hplain | reflexivity | exact Hplain | reflexivity]. }
  assert (Hunder : under tdir fn = true).
  { rewrite Hfn. apply under_child. }
  split; [exact Hfn | split; [exact Hunder|]].
  clear Hin Hfn. by_shape Hdir; in_cases Hdir; injection Hdir as ->;
    apply rmtree_removes; exact Hunder.
Qed.

Lemma input_file_in_directory_and_removed_witness :
  plain_dir "/tmp/t"
  /\ In (EvMkdtemp "/tmp/t")
        (events (render_to_img table_one_to_one sys_ok "image/svg+xml" (Text "<svg/>")
                   "png" 1000 2000 None ∅))
  /\ In (EvWrite "/tmp/t/xxx.svg" "w" (Text "<svg/>") None)
        (events (render_to_img table_one_to_one sys_ok "image/svg+xml" (Text "<svg/>")
                   "png" 1000 2000 None ∅))
  /\ "/tmp/t/xxx.svg" = "/tmp/t" +:+ "/xxx." +:+ suffix_of table_one_to_one "image/svg+xml"
  /\ under "/tmp/t" "/tmp/t/xxx.svg" = true
  /\ ("/tmp/t/xxx.svg"
       ∉ final_fs (render_to_img table_one_to_one sys_ok "image/svg+xml" (Text "<svg/>")
                     "png" 1000 2000 None ∅)).
Proof.
  split; [split; reflexivity|].
  split; [left; reflexivity|].
  split; [right; left; reflexivity|].
  apply (input_file_in_directory_and_removed table_one_to_one sys_ok "image/svg+xml"
           (Text "<svg/>") "png" 1000 2000 None ∅ "/tmp/t" "/tmp/t/xxx.svg" "w"
           (Text "<svg/>") None).
  - split; reflexivity.
  - left; reflexivity.
  - right; left; reflexivity.
Defined.

(** X8: what is written is the input with at most directives in front:
    bytes are written unchanged in mode [wb]; text is written in mode [w]
    and ends with the input as given. *)
Theorem written_content_ends_with_input mimetypes sys mime input typ width height
    asset_base fs0 fn flags data failure :
  In (EvWrite fn flags data failure)
     (events (render_to_img mimetypes sys mime input typ width height asset_base fs0)) ->
  match input with
  | Text s => flags = "w" /\ exists front, data = Text (front +:+ s)
  | Binary b => flags = "wb" /\ data = Binary b
  end.
Proof.
  intros Hin. apply write_event in Hin. destruct Hin as (Hframe & -> & _).
  unfold html_prepend in Hframe. destruct (Str.str_in "html" mime).
  - destruct input as [s|b]; simpl in Hframe; [|discriminate].
    destruct asset_base as [ab|]; simpl in Hframe; injection Hframe as <-.
    + split; [reflexivity|]. exists (base_directive ab +:+ meta_directive).
      rewrite append_assoc. reflexivity.
    + split; [reflexivity|]. exists meta_directive. reflexivity.
  - injection Hframe as <-. destruct input as [s|b].
    + split; [reflexivity|]. exists EmptyString. reflexivity.
    + split; reflexivity.
Qed.

Lemma written_content_ends_with_input_witness :
  In (EvWrite "/tmp/t/xxx.png" "wb" (Binary ok_bytes) None)
     (events (render_to_img table_one_to_one sys_ok "png" (Binary ok_bytes)
                "jpg" 1000 2000 (Some "/a") ∅))
  /\ "wb" = "wb" /\ Binary ok_bytes = Binary ok_bytes.
Proof.
  split; [right; left; reflexivity|].
  apply (written_content_ends_with_input table_one_to_one sys_ok "png" (Binary ok_bytes)
           "jpg" 1000 2000 (Some "/a") ∅ "/tmp/t/xxx.png" "wb" (Binary ok_bytes) None).
  right; left; reflexivity.
Defined.

(** X9: for a mime that does not contain [html] the asset base plays no
    part: the whole run (file system, events, result) is the same for any
    two values of [asset_base]. *)
Theorem asset_base_ignored_without_html mimetypes sys mime input typ width height
    ab1 ab2 fs0 :
  Str.str_in "html" mime = false ->
  render_to_img mimetypes sys mime input typ width height ab1 fs0
  = render_to_img mimetypes sys mime input typ width height ab2 fs0.
Proof.
  intros Hno. unfold render_to_img, bind, lift, html_prepend. rewrite Hno. reflexivity.
Qed.

Lemma asset_base_ignored_without_html_witness :
  Str.str_in "html" "image/svg+xml" = false
  /\ render_to_img table_one_to_one sys_ok "image/svg+xml" (Text "<svg/>") "png"
       1000 2000 (Some "/a") ∅
     = render_to_img table_one_to_one sys_ok "image/svg+xml" (Text "<svg/>") "png"
         1000 2000 None ∅.
Proof.
  split; [reflexivity|].
  apply (asset_base_ignored_without_html table_one_to_one sys_ok "image/svg+xml"
           (Text "<svg/>") "png" 1000 2000 (Some "/a") None ∅).
  reflexivity.
Defined.

(** ** What a call leaves behind *)

Lemma elem_of_rmtree p d (fs : paths) :
  p ∈ rmtree d fs <-> under d p = false /\ p ∈ fs.
Proof. unfold rmtree. rewrite elem_of_filter. reflexivity. Qed.

Lemma under_self d : under d d = true.
Proof. unfold under. rewrite String.eqb_refl. reflexivity. Qed.

Lemma not_under_neq d p q : under d p = false -> under d q = true -> p <> q.
Proof. intros Hp Hq ->. congruence. Qed.

(** A path outside the temporary directory that the tools leave alone is
    there after the call exactly if it was there before. *)
Lemma final_fs_outside mimetypes sys mime input typ width height asset_base fs0 p :
  (forall tdir, os_mkdtemp sys fs0 = inr tdir ->
     plain_dir tdir /\ under tdir p = false
     /\ forall c fs, p ∈ snd (os_spawn sys c fs) <-> p ∈ fs) ->
  p ∈ final_fs (render_to_img mimetypes sys mime input typ width height asset_base fs0)
  <-> p ∈ fs0.
Proof.
  intros Hdir. unfold render_to_img, bind, lift.
  destruct (html_prepend mime input asset_base) as [e|input1]; [reflexivity|].
  unfold with_temporary_directory.
  destruct (os_mkdtemp sys fs0) as [errno|tdir]; [reflexivity|].
  destruct (Hdir tdir eq_refl) as (Hplain & Hout & Hspawn). clear Hdir.
  assert (Hfn : p <> path_join tdir ("xxx." +:+ suffix_of mimetypes mime)).
  { apply (not_under_neq tdir); [exact Hout|].
    rewrite (path_join_plain tdir ("xxx." +:+ suffix_of mimetypes mime) Hplain eq_refl).
    apply under_child. }
  assert (Htd : p <> tdir).
  { apply (not_under_neq tdir); [exact Hout | apply under_self]. }
  unfold open_write.
  destruct (os_open sys _ _ _ _) as [errno|].
  { cbn [final_fs fst snd]. rewrite elem_of_rmtree, elem_of_union, elem_of_singleton.
    tauto. }
  unfold command_ex at 1.
  destruct (os_spawn sys (chrome_invocation _ _ _ _ _) _) as [o1 fs1] eqn:Hs1.
  pose proof (Hspawn (chrome_invocation (chrome_path (os_platform sys)) width height
                (path_join tdir ("xxx." +:+ suffix_of mimetypes mime)) tdir)
                ({[path_join tdir ("xxx." +:+ suffix_of mimetypes mime)]}
                   ∪ ({[tdir]} ∪ fs0))) as H1.
  rewrite Hs1 in H1. cbn [snd] in H1.
  rewrite !elem_of_union, !elem_of_singleton in H1.
  assert (Hfs1 : p ∈ fs1 <-> p ∈ fs0) by tauto.
  destruct o1 as [errno|code1 out1 err1].
  { cbn [final_fs fst snd]. rewrite elem_of_rmtree. tauto. }
  destruct (Z.eqb code1 0).
  2: { cbn [final_fs fst snd]. rewrite elem_of_rmtree. tauto. }
  unfold command_ex.
  destruct (os_spawn sys (convert_invocation _ _) _) as [o2 fs2] eqn:Hs2.
  pose proof (Hspawn (convert_invocation typ tdir) fs1) as H2.
  rewrite Hs2 in H2. cbn [snd] in H2.
  destruct o2 as [errno|code2 out2 err2].
  { cbn [final_fs fst snd]. rewrite elem_of_rmtree. tauto. }
  destruct (Z.eqb code2 0); cbn [final_fs fst snd ret]; rewrite elem_of_rmtree; tauto.
Qed.

(** X10: a path outside the temporary directory that the launched
    processes neither create nor delete exists after the call exactly if
    it existed before: the call itself touches nothing outside its
    temporary directory. *)
Theorem paths_outside_untouched mimetypes sys mime input typ width height
    asset_base fs0 p :
  (forall tdir, os_mkdtemp sys fs0 = inr tdir -> plain_dir tdir /\ under tdir p = false) ->
  (forall c fs, p ∈ snd (os_spawn sys c fs) <-> p ∈ fs) ->
  (p ∈ final_fs (render_to_img mimetypes sys mime input typ width height
                   asset_base fs0)
   <-> p ∈ fs0).
Proof.
  intros Hdir Hspawn. apply final_fs_outside.
  intros tdir Htdir. destruct (Hdir tdir Htdir) as [Hplain Hout].
  split; [exact Hplain | split; [exact Hout | exact Hspawn]].
Qed.

Lemma paths_outside_untouched_witness :
  (forall tdir, os_mkdtemp sys_chrome_fails {["/etc"]} = inr tdir ->
     plain_dir tdir /\ under tdir "/etc" = false)
  /\ (forall c fs, "/etc" ∈ snd (os_spawn sys_chrome_fails c fs) <-> "/etc" ∈ fs)
  /\ ("/etc" ∈ final_fs (render_to_img table_one_to_one sys_chrome_fails "html"
                           (Text "<p>hi</p>") "png" 1000 2000 None {["/etc"]})
      <-> "/etc" ∈ ({["/etc"]} : paths)).
Proof.
  assert (Hdir : forall tdir, os_mkdtemp sys_chrome_fails {["/etc"]} = inr tdir ->
                   plain_dir tdir /\ under tdir "/etc" = false).
  { intros tdir [= <-]. split; [split|]; reflexivity. }
  assert (Hspawn : forall c fs,
            "/etc" ∈ snd (os_spawn sys_chrome_fails c fs) <-> "/etc" ∈ fs).
  { intros c fs. simpl. rewrite elem_of_union, elem_of_singleton.
    split; [intros [H|H]; [discriminate | exact H] | intros H; right; exact H]. }
  split; [exact Hdir | split; [exact Hspawn|]].
  exact (paths_outside_untouched table_one_to_one sys_chrome_fails "html"
           (Text "<p>hi</p>") "png" 1000 2000 None {["/etc"]} "/etc" Hdir Hspawn).
Defined.

(** X11: when the temporary directory is new (nothing at or below its
    name existed) and the launched processes create and delete nothing
    outside it, the file system after the call is the file system before
    it, whether the call returns or raises. *)
Theorem call_leaves_no_trace mimetypes sys mime input typ width height asset_base fs0 :
  (forall tdir, os_mkdtemp sys fs0 = inr tdir ->
     plain_dir tdir /\ forall p, under tdir p = true -> p ∉ fs0) ->
  (forall tdir c fs p,
     os_mkdtemp sys fs0 = inr tdir -> under tdir p = false ->
     (p ∈ snd (os_spawn sys c fs) <-> p ∈ fs)) ->
  final_fs (render_to_img mimetypes sys mime input typ width height asset_base fs0)
  = fs0.
Proof.
  intros Hfresh Htools. apply set_eq. intros p.
  destruct (os_mkdtemp sys fs0) as [errno|tdir] eqn:Hmk.
  { apply final_fs_outside. intros tdir Htdir. congruence. }
  destruct (Hfresh tdir eq_refl) as [Hplain Hnew].
  destruct (under tdir p) eqn:Hu.
  - specialize (Hnew p Hu).
    assert (Hgone : p ∉ final_fs (render_to_img mimetypes sys mime input typ width
                                    height asset_base fs0)).
    { goal_by_shape; try exact Hnew;
        (replace tdir0 with tdir by congruence); apply rmtree_removes; exact Hu. }
    tauto.
  - apply final_fs_outside. intros tdir' Htdir.
    rewrite Hmk in Htdir. injection Htdir as <-.
    split; [exact Hplain | split; [exact Hu|]].
    intros c fs. apply (Htools tdir c fs p eq_refl Hu).
Qed.

Lemma call_leaves_no_trace_witness :
  (forall tdir, os_mkdtemp sys_ok {["/etc"]} = inr tdir ->
     plain_dir tdir /\ forall p, under tdir p = true -> p ∉ ({["/etc"]} : paths))
  /\ (forall tdir c fs p,
        os_mkdtemp sys_ok {["/etc"]} = inr tdir -> under tdir p = false ->
        (p ∈ snd (os_spawn sys_ok c fs) <-> p ∈ fs))
  /\ final_fs (render_to_img table_one_to_one sys_ok "html" (Text "<p>hi</p>") "jpg"
                 1000 2000 (Some "/a") {["/etc"]})
     = {["/etc"]}.
Proof.
  assert (Hfresh : forall tdir, os_mkdtemp sys_ok {["/etc"]} = inr tdir ->
            plain_dir tdir /\ forall p, under tdir p = true -> p ∉ ({["/etc"]} : paths)).
  { intros tdir [= <-]. split; [split; reflexivity|].
    intros p Hu Hin. apply elem_of_singleton in Hin. subst p. discriminate. }
  assert (Htools : forall tdir c fs p,
            os_mkdtemp sys_ok {["/etc"]} = inr tdir -> under tdir p = false ->
            (p ∈ snd (os_spawn sys_ok c fs) <-> p ∈ fs)).
  { intros tdir c fs p [= <-] Hu. simpl.
    destruct (String.eqb (cmd c) "convert"); [reflexivity|]. simpl.
    rewrite elem_of_union, elem_of_singleton.
    split; [intros [H|H]; [subst p; discriminate | exact H] | intros H; right; exact H]. }
  split; [exact Hfresh | split; [exact Htools|]].
  exact (call_leaves_no_trace table_one_to_one sys_ok "html" (Text "<p>hi</p>") "jpg"
           1000 2000 (Some "/a") {["/etc"]} Hfresh Htools).
Defined.

(** ** More on the suffix *)

Lemma suffix_loop_cases items m suffix :
  (suffix_loop items m suffix = suffix /\ forall k, ~ In (k, m) items)
  \/ exists before k after,
       items = before ++ (k, m) :: after
       /\ (forall kv, In kv before -> snd kv <> m)
       /\ suffix_loop items m suffix = k.
Proof.
  induction items as [|[k v] items IH]; simpl.
  - left. split; [reflexivity | intros k []].
  - destruct (String.eqb v m) eqn:Hv.
    + apply String.eqb_eq in Hv. subst v. right.
      exists [], k, items. split; [reflexivity | split; [intros kv [] | reflexivity]].
    + apply String.eqb_neq in Hv. destruct IH as [[Hs Hn] | (before & k' & after & -> & Hb & Hs)].
      * left. split; [exact Hs|]. intros k' [Heq|Hin]; [congruence | exact (Hn k' Hin)].
      * right. exists ((k, v) :: before), k', after.
        split; [reflexivity | split; [|exact Hs]].
        intros kv [<-|Hkv]; [exact Hv | exact (Hb kv Hkv)].
Qed.

Lemma dict_get_unique (d : dict) k v :
  unique_keys d -> In (k, v) d -> dict_get d k = Some v.
Proof.
  unfold unique_keys. induction d as [|[k' v'] d IH]; simpl; intros Hnd Hin; [destruct Hin|].
  inversion Hnd as [|? ? Hnotin Hnd']; subst.
  destruct (String.eqb k' k) eqn:Hk.
  - apply String.eqb_eq in Hk. subst k'. destruct Hin as [Heq|Hin]; [congruence|].
    exfalso. apply Hnotin. apply list_elem_of_In.
    apply (in_map fst) in Hin. exact Hin.
  - apply String.eqb_neq in Hk. destruct Hin as [Heq|Hin]; [congruence|].
    apply IH; assumption.
Qed.

(** X12: the suffix is never anything but the raw mime string or an alias
    of the table. *)
Theorem suffix_is_mime_or_alias (mimetypes : dict) (mime : string) :
  suffix_of mimetypes mime = mime
  \/ exists v, In (suffix_of mimetypes mime, v) mimetypes.
Proof.
  unfold suffix_of.
  destruct (suffix_loop_cases mimetypes (py_or (dict_get mimetypes mime) mime) mime)
    as [[Hs _] | (before & k & after & Heq & _ & Hs)].
  - left. exact Hs.
  - right. rewrite Hs. exists (py_or (dict_get mimetypes mime) mime).
    rewrite Heq at 2. apply in_or_app. right. left. reflexivity.
Qed.

(** X13: an alias and the MIME string it stands for give the same suffix,
    when that MIME string is non-empty and is not itself an alias. *)
Theorem alias_and_mime_same_suffix (mimetypes : dict) (mime v : string) :
  dict_get mimetypes mime = Some v ->
  v <> EmptyString ->
  dict_get mimetypes v = None ->
  suffix_of mimetypes v = suffix_of mimetypes mime.
Proof.
  intros Hget Hv Hnone. unfold suffix_of.
  rewrite Hget, Hnone, (py_or_truthy _ _ Hv). cbn [py_or].
  destruct (first_with_value _ _ _ (dict_get_In _ _ _ Hget))
    as (before & k & after & Heq & Hb).
  rewrite Heq, !suffix_loop_first by exact Hb. reflexivity.
Qed.

Lemma alias_and_mime_same_suffix_witness :
  dict_get table_two_aliases "jpg" = Some "image/jpeg"
  /\ "image/jpeg" <> EmptyString
  /\ dict_get table_two_aliases "image/jpeg" = None
  /\ suffix_of table_two_aliases "image/jpeg" = suffix_of table_two_aliases "jpg".
Proof.
  split; [reflexivity|]. split; [discriminate|]. split; [reflexivity|].
  apply (alias_and_mime_same_suffix table_two_aliases "jpg" "image/jpeg");
    [reflexivity | discriminate | reflexivity].
Defined.

(** X14: for a table without repeated keys and without empty entries the
    suffix is settled: deriving the suffix of a suffix gives that suffix
    again. *)
Theorem suffix_of_idempotent (mimetypes : dict) (mime : string) :
  unique_keys mimetypes ->
  nonempty_values mimetypes ->
  suffix_of mimetypes (suffix_of mimetypes mime) = suffix_of mimetypes mime.
Proof.
  intros Huniq Hne.
  assert (Hcases := suffix_loop_cases mimetypes (py_or (dict_get mimetypes mime) mime) mime).
  fold (suffix_of mimetypes mime) in Hcases.
  destruct Hcases as [[Hs _] | (before & k & after & Heq & Hb & Hs)].
  - rewrite Hs. exact Hs.
  - rewrite Hs. set (m := py_or (dict_get mimetypes mime) mime) in *.
    assert (Hin : In (k, m) mimetypes).
    { rewrite Heq. apply in_or_app. right. left. reflexivity. }
    unfold suffix_of.
    rewrite (dict_get_unique _ _ _ Huniq Hin), (py_or_truthy _ _ (Hne k m Hin)).
    rewrite Heq. apply suffix_loop_first. exact Hb.
Qed.

Lemma suffix_of_idempotent_witness :
  unique_keys table_two_aliases
  /\ nonempty_values table_two_aliases
  /\ suffix_of table_two_aliases (suffix_of table_two_aliases "html")
     = suffix_of table_two_aliases "html".
Proof.
  assert (Huniq : unique_keys table_two_aliases).
  { unfold unique_keys. simpl.
    repeat (constructor; [intros H; apply list_elem_of_In in H; in_cases H|]).
    constructor. }
  assert (Hne : nonempty_values table_two_aliases).
  { intros k v Hin. in_cases Hin; injection Hin as _ <-; discriminate. }
  split; [exact Huniq | split; [exact Hne|]].
  exact (suffix_of_idempotent table_two_aliases "html" Huniq Hne).
Defined.

(** ** The two processes meet in the temporary directory *)

(** X15: the converter reads [screenshot.png] from the directory the
    browser ran in: the browser's working directory [tdir] and the
    converter's first argument [join(tdir, screenshot.png)] use the same
    directory, and for a plain directory name that argument is
    [<tdir>/screenshot.png]. *)
Theorem converter_reads_from_browser_cwd mimetypes sys mime input typ width height
    asset_base fs0 b ob c oc :
  In (EvCommand b ob)
     (events (render_to_img mimetypes sys mime input typ width height asset_base fs0)) ->
  cmd b <> "convert" ->
  In (EvCommand c oc)
     (events (render_to_img mimetypes sys mime input typ width height asset_base fs0)) ->
  cmd c = "convert" ->
  exists tdir rest,
    cwd b = Some tdir
    /\ args c = path_join tdir "screenshot.png" :: rest
    /\ (plain_dir tdir -> path_join tdir "screenshot.png" = tdir +:+ "/screenshot.png").
Proof.
  intros Hb Hbcmd Hc Hccmd.
  by_shape Hb; in_cases Hb; injection Hb as <- <-;
    try (exfalso; apply Hbcmd; reflexivity);
    in_cases Hc; injection Hc as <- <-;
    try (exfalso; exact (chrome_path_not_convert _ Hccmd));
    exists tdir; eexists; (split; [reflexivity | split; [reflexivity|]]);
    intros Hplain; apply (path_join_plain tdir "screenshot.png" Hplain eq_refl).
Qed.

Lemma converter_reads_from_browser_cwd_witness :
  In (EvCommand (chrome_invocation "google-chrome" 1000 2000 "/tmp/t/xxx.html" "/tmp/t")
        (Exited 0 [] []))
     (events (render_to_img table_one_to_one sys_ok "html" (Text "<p>hi</p>") "png"
                1000 2000 None ∅))
  /\ In (EvCommand (convert_invocation "png" "/tmp/t") (Exited 0 ok_bytes []))
        (events (render_to_img table_one_to_one sys_ok "html" (Text "<p>hi</p>") "png"
                   1000 2000 None ∅))
  /\ exists tdir rest,
       cwd (chrome_invocation "google-chrome" 1000 2000 "/tmp/t/xxx.html" "/tmp/t")
       = Some tdir
       /\ args (convert_invocation "png" "/tmp/t") = path_join tdir "screenshot.png" :: rest
       /\ (plain_dir tdir -> path_join tdir "screenshot.png" = tdir +:+ "/screenshot.png").
Proof.
  split; [do 2 right; left; reflexivity|].
  split; [do 3 right; left; reflexivity|].
  apply (converter_reads_from_browser_cwd table_one_to_one sys_ok "html"
           (Text "<p>hi</p>") "png" 1000 2000 None ∅
           (chrome_invocation "google-chrome" 1000 2000 "/tmp/t/xxx.html" "/tmp/t")
           (Exited 0 [] [])
           (convert_invocation "png" "/tmp/t") (Exited 0 ok_bytes [])).
  - do 2 right; left; reflexivity.
  - discriminate.
  - do 3 right; left; reflexivity.
  - reflexivity.
Defined.
